(** * Bob Emploi: the API client and the user reducer

    A shallow embedding of [frontend/src/store/api.js] (the API client
    boundary) and of the [user] reducer exercised by the reducer test
    suite, together with the properties the specification states about
    them, followed by the state handling of the action modals and
    further properties of the client. *)

From Stdlib Require Import ZArith Floats Ascii.
From stdpp Require Import gmap strings list fin_maps.

Set Warnings "-register-all".
Local Open Scope Z_scope.
Local Open Scope string_scope.

(** ** JavaScript values

    Objects are finite maps from property names to values, arrays are
    lists, numbers are IEEE doubles. *)

Inductive value : Type :=
| VUndefined
| VNull
| VBool (b : bool)
| VNum (f : float)
| VStr (s : string)
| VArr (l : list value)
| VObj (m : gmap string value).

Abbreviation obj := (gmap string value).

(** ToBoolean: [undefined], [null], [false], [0], [NaN] and [''] are falsy. *)
Definition truthy (v : value) : bool :=
  match v with
  | VUndefined | VNull => false
  | VBool b => b
  | VNum f => negb (PrimFloat.eqb f 0%float || PrimFloat.is_nan f)
  | VStr s => negb (String.eqb s "")
  | VArr _ | VObj _ => true
  end.

(** [o.k] on an object: a missing property reads as [undefined]. *)
Definition get (o : obj) (k : string) : value := default VUndefined (o !! k).

(** [a || b] *)
Definition js_or (a b : value) : value := if truthy a then a else b.

(** ** Promises

    A promise is modelled by the way it eventually settles. *)

Inductive reason : Type :=
| Thrown (message : string)   (* a string thrown by a handler *)
| NetworkError                (* fetch could not reach the server *)
| SyntaxError                 (* the body is not JSON *)
| TypeError.                  (* property read on null or undefined *)

Inductive promise (A : Type) : Type :=
| Resolved (a : A)
| Rejected (e : reason).
Arguments Resolved {A} a.
Arguments Rejected {A} e.

(** [p.then(f)]: a rejection skips the handler. *)
Definition then_ {A B : Type} (p : promise A) (f : A -> promise B) : promise B :=
  match p with
  | Resolved a => f a
  | Rejected e => Rejected e
  end.

Notation "p '.then' f" := (then_ p f) (at level 50, left associativity).

Definition is_rejected {A : Type} (p : promise A) : bool :=
  match p with Rejected _ => true | Resolved _ => false end.

(** ** The DOM fragment used by [cleanHtmlError] *)

Inductive node : Type :=
| Text (data : string)
| Element (tagName : string) (childNodes : list node).

(** Concatenation of the text of all descendants, in tree order. *)
Fixpoint textContent (n : node) : string :=
  match n with
  | Text s => s
  | Element _ cs =>
      (fix go (l : list node) : string :=
         match l with
         | [] => ""
         | c :: l' => textContent c ++ go l'
         end) cs
  end.

(** The page built by [cleanHtmlError] is never attached to the document,
    and the [innerText] of an element that is not rendered is its
    [textContent]. *)
Definition innerText (n : node) : string := textContent n.

(** Descendants of a node in tree order (the node itself excluded). *)
Fixpoint descendants (n : node) : list node :=
  match n with
  | Text _ => []
  | Element _ cs =>
      (fix go (l : list node) : list node :=
         match l with
         | [] => []
         | c :: l' => c :: descendants c ++ go l'
         end) cs
  end.

Definition lower_ascii (c : ascii) : ascii :=
  let n := nat_of_ascii c in
  if ((65 <=? n) && (n <=? 90))%nat then ascii_of_nat (n + 32) else c.

Fixpoint lowercase (s : string) : string :=
  match s with
  | EmptyString => EmptyString
  | String c s' => String (lower_ascii c) (lowercase s')
  end.

Definition has_tag (name : string) (n : node) : bool :=
  match n with
  | Text _ => false
  | Element t _ => String.eqb t name
  end.

(** [e.getElementsByTagName(q)] in an HTML document: the descendant
    elements whose name is [q] in lower case, in tree order. *)
Definition getElementsByTagName (q : string) (e : node) : list node :=
  List.filter (has_tag (lowercase q)) (descendants e).

(** ** Requests and responses *)

Record request_init : Type := {
  init_body : value;
  init_headers : list (string * string);
  init_method : string;
}.

Record request : Type := {
  req_url : string;
  req_init : option request_init;
}.

Record response : Type := {
  status : Z;
  body_text : string;
}.

(** What the browser and the build configuration provide. *)
Class Platform : Type := {
  backendHostName : string;                (* config.backendHostName *)
  fetch : request -> promise response;
  JSON_stringify : value -> value;
  JSON_parse : string -> option value;
  ToString : value -> string;              (* template-literal conversion *)
  encodeURIComponent : string -> string;
  parseFragment : string -> list node;     (* page.innerHTML = ... *)
}.

(** What an API call hands to its caller: a decoded body, or the raw
    response when no body is decoded. *)
Inductive answer : Type :=
| Raw (r : response)
| Json (v : value).

Module Api.
Section Client.
Context `{Platform}.

(** [response.text()] *)
Definition text (r : response) : promise string := Resolved (body_text r).

(** [response.json()] *)
Definition json (r : response) : promise value :=
  match JSON_parse (body_text r) with
  | Some v => Resolved v
  | None => Rejected SyntaxError
  end.

Definition cleanHtmlError (htmlErrorPage : string) : string :=
  let page := Element "html" (parseFragment htmlErrorPage) in
  let content := getElementsByTagName "P" page in
  (* content.length && content[0].innerText || page.innerText *)
  match content with
  | [] => innerText page
  | p :: _ => if String.eqb (innerText p) "" then innerText page else innerText p
  end.

Definition handleJsonResponse (r : response) : promise value :=
  if ((status r >=? 400) || (status r <? 200))%Z then
    text r .then (fun errorMessage => Rejected (Thrown (cleanHtmlError errorMessage)))
  else json r.

Definition json_headers : list (string * string) :=
  [("Accept", "application/json"); ("Content-Type", "application/json")].

Definition post_request (path : string) (data : value) : request :=
  {| req_url := backendHostName ++ path;
     req_init := Some {| init_body := JSON_stringify data;
                         init_headers := json_headers;
                         init_method := "post" |} |}.

Definition postJson (path : string) (data : value) (isExpectingResponse : bool)
  : promise answer :=
  let fetchPromise := fetch (post_request path data) in
  if isExpectingResponse then
    fetchPromise .then handleJsonResponse .then (fun v => Resolved (Json v))
  else
    fetchPromise .then (fun r => Resolved (Raw r)).

Definition delete_request (path : string) (data : value) : request :=
  {| req_url := backendHostName ++ path;
     req_init := Some {| init_body := JSON_stringify data;
                         init_headers := json_headers;
                         init_method := "delete" |} |}.

Definition deleteJson (path : string) (data : value) : promise value :=
  fetch (delete_request path data) .then handleJsonResponse.

Definition get_request (path : string) : request :=
  {| req_url := backendHostName ++ path; req_init := None |}.

Definition getJson (path : string) : promise value :=
  fetch (get_request path) .then handleJsonResponse.

(** [v.k] on an arbitrary value: reading a property of [null] or
    [undefined] throws; none of the properties read below exists on a
    primitive or on an array. *)
Definition prop (v : value) (k : string) : promise value :=
  match v with
  | VUndefined | VNull => Rejected TypeError
  | VObj o => Resolved (get o k)
  | _ => Resolved VUndefined
  end.

Definition adviceTipsGet (user project advice : obj) : promise value :=
  let userId := get user "userId" in
  let projectId := get project "projectId" in
  let adviceId := get advice "adviceId" in
  getJson ("/api/project/" ++ ToString userId ++ "/" ++ ToString projectId
             ++ "/advice/" ++ ToString adviceId ++ "/tips")
    .then (fun response => prop response "tips").

Definition dashboardExportGet (dashboardExportId : value) : promise value :=
  getJson ("/api/dashboard-export/" ++ ToString dashboardExportId).

Definition jobBoardsGet (user project : obj) : promise value :=
  let userId := get user "userId" in
  let projectId := get project "projectId" in
  getJson ("/api/project/" ++ ToString userId ++ "/" ++ ToString projectId ++ "/jobboards")
    .then (fun response =>
             prop response "jobBoards" .then (fun jobBoards =>
             Resolved (js_or jobBoards (VArr [])))).

Definition jobsGet (romeId : value) : promise value :=
  getJson ("/api/jobs/" ++ ToString romeId).

Definition markUsedAndRetrievePost (userId : value) : promise answer :=
  postJson ("/api/app/use/" ++ ToString userId) VUndefined true.

Definition migrateUserToAdvisor (user : obj) : promise answer :=
  let userId := get user "userId" in
  postJson ("/api/user/" ++ ToString userId ++ "/migrate-to-advisor") VUndefined true.

Definition projectRequirementsGet (project : value) : promise answer :=
  postJson "/api/project/requirements" project true.

Definition refreshActionPlanPost (userId : value) : promise answer :=
  postJson "/api/user/refresh-action-plan" (VObj {[ "userId" := userId ]}) true.

Definition resetPasswordPost (email : value) : promise answer :=
  postJson "/api/user/reset-password" (VObj {[ "email" := email ]}) true.

Definition saveLikes (userId likes : value) : promise answer :=
  postJson "/api/user/likes" (VObj (<["likes" := likes]> {[ "userId" := userId ]})) false.

Definition userPost (user : obj) : promise answer :=
  (* const {onboardingComplete, ...protoUser} = user *)
  let protoUser := delete "onboardingComplete" user in
  postJson "/api/user" (VObj protoUser) true.

Definition userGet (userId : value) : promise value :=
  getJson ("/api/user/" ++ ToString userId).

Definition userDelete (user : value) : promise value :=
  deleteJson "/api/user" user.

Definition userAuthenticate (authRequest : value) : promise answer :=
  postJson "/api/user/authenticate" authRequest true.

Definition exploreGet (city sourceJob : value) : promise value :=
  let data := VObj (<["city" := city]> {[ "sourceJob" := sourceJob ]}) in
  getJson ("/api/explore/job?data="
             ++ encodeURIComponent (ToString (JSON_stringify data))).

Definition exploreJobGroupGet (city jobGroupRomeId : value) : promise value :=
  let data :=
    VObj (<["city" := city]>
            {[ "sourceJob" :=
                 VObj {[ "jobGroup" := VObj {[ "romeId" := jobGroupRomeId ]} ]} ]}) in
  getJson ("/api/explore/job/stats?data="
             ++ encodeURIComponent (ToString (JSON_stringify data))).

Definition feedbackPost (feedback : value) : promise answer :=
  postJson "/api/feedback" feedback false.

(** The exported [api] table: one constructor per entry, with the
    arguments of the call. *)
Inductive api_call : Type :=
| AdviceTipsGet (user project advice : obj)
| DashboardExportGet (dashboardExportId : value)
| ExploreGet (city sourceJob : value)
| ExploreJobGroupGet (city jobGroupRomeId : value)
| FeedbackPost (feedback : value)
| JobBoardsGet (user project : obj)
| JobsGet (romeId : value)
| MarkUsedAndRetrievePost (userId : value)
| MigrateUserToAdvisor (user : obj)
| ProjectRequirementsGet (project : value)
| RefreshActionPlanPost (userId : value)
| ResetPasswordPost (email : value)
| SaveLikes (userId likes : value)
| UserAuthenticate (authRequest : value)
| UserDelete (user : value)
| UserGet (userId : value)
| UserPost (user : obj).

Definition decoded (p : promise value) : promise answer :=
  p .then (fun v => Resolved (Json v)).

Definition api (c : api_call) : promise answer :=
  match c with
  | AdviceTipsGet u p a => decoded (adviceTipsGet u p a)
  | DashboardExportGet i => decoded (dashboardExportGet i)
  | ExploreGet c j => decoded (exploreGet c j)
  | ExploreJobGroupGet c j => decoded (exploreJobGroupGet c j)
  | FeedbackPost f => feedbackPost f
  | JobBoardsGet u p => decoded (jobBoardsGet u p)
  | JobsGet r => decoded (jobsGet r)
  | MarkUsedAndRetrievePost u => markUsedAndRetrievePost u
  | MigrateUserToAdvisor u => migrateUserToAdvisor u
  | ProjectRequirementsGet p => projectRequirementsGet p
  | RefreshActionPlanPost u => refreshActionPlanPost u
  | ResetPasswordPost e => resetPasswordPost e
  | SaveLikes u l => saveLikes u l
  | UserAuthenticate a => userAuthenticate a
  | UserDelete u => decoded (userDelete u)
  | UserGet u => decoded (userGet u)
  | UserPost u => userPost u
  end.

(** The calls that run the response through [handleJsonResponse]: every
    get, every delete, and the posts whose third argument is [true]. *)
Definition isExpectingResponse (c : api_call) : bool :=
  match c with
  | FeedbackPost _ | SaveLikes _ _ => false
  | _ => true
  end.

(** The request an entry of the table hands to [fetch]. *)
Definition api_request (c : api_call) : request :=
  match c with
  | AdviceTipsGet u p a =>
      get_request ("/api/project/" ++ ToString (get u "userId") ++ "/"
                     ++ ToString (get p "projectId") ++ "/advice/"
                     ++ ToString (get a "adviceId") ++ "/tips")
  | DashboardExportGet i => get_request ("/api/dashboard-export/" ++ ToString i)
  | ExploreGet c j =>
      get_request ("/api/explore/job?data=" ++ encodeURIComponent (ToString
        (JSON_stringify (VObj (<["city" := c]> {[ "sourceJob" := j ]})))))
  | ExploreJobGroupGet c j =>
      get_request ("/api/explore/job/stats?data=" ++ encodeURIComponent (ToString
        (JSON_stringify (VObj (<["city" := c]> {[ "sourceJob" :=
           VObj {[ "jobGroup" := VObj {[ "romeId" := j ]} ]} ]})))))
  | FeedbackPost f => post_request "/api/feedback" f
  | JobBoardsGet u p =>
      get_request ("/api/project/" ++ ToString (get u "userId") ++ "/"
                     ++ ToString (get p "projectId") ++ "/jobboards")
  | JobsGet r => get_request ("/api/jobs/" ++ ToString r)
  | MarkUsedAndRetrievePost u => post_request ("/api/app/use/" ++ ToString u) VUndefined
  | MigrateUserToAdvisor u =>
      post_request ("/api/user/" ++ ToString (get u "userId") ++ "/migrate-to-advisor")
        VUndefined
  | ProjectRequirementsGet p => post_request "/api/project/requirements" p
  | RefreshActionPlanPost u =>
      post_request "/api/user/refresh-action-plan" (VObj {[ "userId" := u ]})
  | ResetPasswordPost e => post_request "/api/user/reset-password" (VObj {[ "email" := e ]})
  | SaveLikes u l =>
      post_request "/api/user/likes" (VObj (<["likes" := l]> {[ "userId" := u ]}))
  | UserAuthenticate a => post_request "/api/user/authenticate" a
  | UserDelete u => delete_request "/api/user" u
  | UserGet u => get_request ("/api/user/" ++ ToString u)
  | UserPost u => post_request "/api/user" (VObj (delete "onboardingComplete" u))
  end.

End Client.

(** The method [fetch] puts on the wire: the names of the standard
    methods are matched without regard to case and sent in upper case, and
    a call without options is a GET. *)
Definition upper_ascii (c : ascii) : ascii :=
  let n := nat_of_ascii c in
  if ((97 <=? n) && (n <=? 122))%nat then ascii_of_nat (n - 32) else c.

Fixpoint uppercase (s : string) : string :=
  match s with
  | EmptyString => EmptyString
  | String c s' => String (upper_ascii c) (uppercase s')
  end.

Definition normalize_method (m : string) : string :=
  let u := uppercase m in
  if existsb (String.eqb u) ["DELETE"; "GET"; "HEAD"; "OPTIONS"; "POST"; "PUT"]
  then u else m.

Definition http_method (req : request) : string :=
  match req_init req with
  | None => "GET"
  | Some i => normalize_method (init_method i)
  end.

End Api.

(** ** The user reducer *)

Module UserReducer.

(** Modelled from the spec: the intent type tags exported by
    [store/actions], which is not among the sources. *)
Definition CREATE_PROJECT : string := "CREATE_PROJECT".
Definition EDIT_FIRST_PROJECT : string := "EDIT_FIRST_PROJECT".

(** [state.projects], read as a sequence: an absent or undefined
    [projects] has no element. *)
Definition projects (state : obj) : list value :=
  match state !! "projects" with
  | Some (VArr l) => l
  | _ => []
  end.

(** [project.isIncomplete] as a condition. *)
Definition isIncomplete (project : value) : bool :=
  match project with
  | VObj p => truthy (get p "isIncomplete")
  | _ => false
  end.

(** The own properties of the payload of an intent. *)
Definition fields (payload : value) : obj :=
  match payload with
  | VObj p => p
  | _ => ∅
  end.

Section Reducer.

(** Modelled from the spec: the defaults a project payload is merged
    over; the module that builds a project is not among the sources. *)
Variable defaults : obj.

(** Modelled from the spec: "the supplied project merged over defaults,
    re-flagging isIncomplete: true". *)
Definition incompleteProject (payload : value) : value :=
  VObj (<["isIncomplete" := VBool true]> (fields payload ∪ defaults)).

(** Modelled from the spec: the [user] reducer of [store/user_reducer],
    of which only the test suite is among the sources.  CREATE_PROJECT
    makes the supplied project the sole element when there is no project
    and is a no-op otherwise; EDIT_FIRST_PROJECT is a no-op when the first
    project is not incomplete and otherwise (first project incomplete, or
    no project) makes the rebuilt project the content of [projects]; any
    other intent returns the state it was given. *)
Definition user (state : obj) (action : obj) : obj :=
  match action !! "type" with
  | Some (VStr type) =>
      if String.eqb type CREATE_PROJECT then
        match projects state with
        | [] => <["projects" := VArr [get action "project"]]> state
        | _ :: _ => state
        end
      else if String.eqb type EDIT_FIRST_PROJECT then
        match projects state with
        | first :: _ =>
            if isIncomplete first
            then <["projects" := VArr [incompleteProject (get action "project")]]> state
            else state
        | [] => <["projects" := VArr [incompleteProject (get action "project")]]> state
        end
      else state
  | _ => state
  end.

(** The intent types the reducer acts on. *)
Definition recognized (action : obj) : bool :=
  match action !! "type" with
  | Some (VStr type) => String.eqb type CREATE_PROJECT || String.eqb type EDIT_FIRST_PROJECT
  | _ => false
  end.

(** Dispatching a sequence of intents, in order. *)
Definition dispatch_all (state : obj) (actions : list obj) : obj :=
  fold_left user actions state.

End Reducer.


(** The number of projects of a user flagged incomplete. *)
Definition incompleteCount (state : obj) : nat :=
  length (List.filter isIncomplete (projects state)).

End UserReducer.

(** ** A concrete platform

    A parser for pages made of plain tags and text, giving the tree the
    browser builds when such a page is assigned to the [innerHTML] of an
    [html] element, and a server that gives the same response to every
    request. *)

Module Sample.

Inductive token : Type :=
| Open (name : string)
| Close (name : string)
| Chars (data : string).

Definition text_token (acc : string) : list token :=
  if String.eqb acc "" then [] else [Chars acc].

Definition tag_token (acc : string) : token :=
  match acc with
  | String "/"%char name => Close (lowercase name)
  | _ => Open (lowercase acc)
  end.

Fixpoint tokenize (s : string) (inTag : bool) (acc : string) : list token :=
  match s with
  | EmptyString => if inTag then [] else text_token acc
  | String c s' =>
      if inTag then
        if Ascii.eqb c ">"%char then tag_token acc :: tokenize s' false ""
        else tokenize s' true (acc ++ String c "")
      else
        if Ascii.eqb c "<"%char then (text_token acc ++ tokenize s' true "")%list
        else tokenize s' false (acc ++ String c "")
  end.

Fixpoint build (ts : list token) (cur : list node) (stack : list (string * list node))
  : list node :=
  match ts with
  | [] => fold_left (fun kids '(t, parent) => (parent ++ [Element t kids])%list) stack cur
  | Chars s :: ts' => build ts' (cur ++ [Text s])%list stack
  | Open t :: ts' => build ts' [] ((t, cur) :: stack)
  | Close _ :: ts' =>
      match stack with
      | (t, parent) :: stack' => build ts' (parent ++ [Element t cur])%list stack'
      | [] => build ts' cur []
      end
  end.

Definition is_html_tag (t : token) : bool :=
  match t with
  | Open n | Close n => String.eqb n "html"
  | Chars _ => false
  end.

(** The [html] tags of the page are dropped, the element names are in
    lower case, and the content goes to an implied [body]. *)
Definition parse (page : string) : list node :=
  let ts := List.filter (fun t => negb (is_html_tag t)) (tokenize page false "") in
  [Element "head" []; Element "body" (build ts [] [])].

Definition server (r : response) : Platform :=
  {| backendHostName := "https://backend.example";
     fetch := fun _ => Resolved r;
     JSON_stringify := fun v => match v with VUndefined => VUndefined | _ => VStr "{}" end;
     JSON_parse := fun s => if String.eqb s "{}" then Some (VObj ∅) else None;
     ToString := fun v => match v with VStr s => s | _ => "undefined" end;
     encodeURIComponent := fun s => s;
     parseFragment := parse |}.

Definition notFoundPage : string := "<html><p>Not Found</p></html>".
Definition notFound : response := {| status := 404; body_text := notFoundPage |}.
Definition ok : response := {| status := 200; body_text := "{}" |}.
Definition serverError : response :=
  {| status := 500; body_text := "<html><p>Internal Server Error</p></html>" |}.

Definition sampleUser : obj :=
  <["onboardingComplete" := VBool true]> {[ "userId" := VStr "u1" ]}.

(** The states and intents of the reducer test suite. *)
Definition fooBar : obj := {[ "foo" := VStr "bar" ]}.

Definition withCompleteProject : obj :=
  <["projects" := VArr [VObj {[ "title" := VStr "a project" ]}]]> fooBar.

Definition withIncompleteProject : obj :=
  <["projects" :=
      VArr [VObj (<["isIncomplete" := VBool true]>
                    (<["target" := VStr "job"]> {[ "title" := VStr "a project" ]}))]]>
    fooBar.

Definition newProject : obj := {[ "title" := VStr "new project" ]}.

Definition unknownAction : obj := {[ "type" := VStr "SOME_UNKNOWN_ACTION" ]}.

Definition createProject : obj :=
  <["project" := VObj newProject]> {[ "type" := VStr UserReducer.CREATE_PROJECT ]}.

Definition editFirstProject : obj :=
  <["project" := VObj newProject]> {[ "type" := VStr UserReducer.EDIT_FIRST_PROJECT ]}.

End Sample.

(** ** The action modals

    The state and the handlers of the components that let the user
    finish, decline, postpone or save an action.  [setState] merges its
    argument into the state at once; what a handler passes to [dispatch]
    and to [onClose] is recorded, in order, as its effects.  The action
    creators live in [store/actions]: an intent is recorded as the name
    of its creator and the arguments given to it. *)

Module PositiveFeedbackModal.

Record state : Type := {
  isNotUseful : bool;
  isUseful : bool;
}.

Definition initial : state := {| isNotUseful := false; isUseful := false |}.

Inductive event : Type :=
| ReceiveProps (isShown nextIsShown : value)   (* componentWillReceiveProps *)
| ClickUseful                                  (* the "Utile" button *)
| ClickNotUseful.                              (* the "Pas utile" button *)

Definition componentWillReceiveProps (isShown nextIsShown : value) (st : state) : state :=
  if negb (truthy isShown) && truthy nextIsShown
  then {| isNotUseful := false; isUseful := false |}
  else st.

Definition step (st : state) (e : event) : state :=
  match e with
  | ReceiveProps isShown nextIsShown => componentWillReceiveProps isShown nextIsShown st
  | ClickUseful => {| isNotUseful := false; isUseful := true |}
  | ClickNotUseful => {| isNotUseful := true; isUseful := false |}
  end.

(** What [handleSubmit] passes to [onSubmit], if it calls it. *)
Definition handleSubmit (st : state) (comment : value) : option (value * value) :=
  if Bool.eqb (isNotUseful st) (isUseful st) then None
  else Some (VBool (isUseful st), comment).

(** The [disabled] property of the send button. *)
Definition disabled (st : state) : bool :=
  negb (isUseful st) && negb (isNotUseful st).

End PositiveFeedbackModal.

Module ActionDescriptionModal.

Inductive effect : Type :=
| Dispatch (creator : string) (args : list value)
| OnClose.

Record props : Type := {
  action : value;
  isShown : value;
}.

(** The functions handed to [closeAndDo], each with what it captured. *)
Inductive callback : Type :=
| SubmitPositive (action wasUseful caption : value)
| SubmitNegative (action caption : value)
| Cancel (action : value) (feedback : obj)
| Save (action : value).

Record state : Type := {
  isConfirmStickyActionModalShown : bool;
  isNegativeFeedbackModalShown : bool;
  isPositiveFeedbackModalShown : bool;
  onHidden : option callback;
}.

Definition initial : state :=
  {| isConfirmStickyActionModalShown := false;
     isNegativeFeedbackModalShown := false;
     isPositiveFeedbackModalShown := false;
     onHidden := None |}.

Definition setConfirm (b : bool) (st : state) : state :=
  {| isConfirmStickyActionModalShown := b;
     isNegativeFeedbackModalShown := isNegativeFeedbackModalShown st;
     isPositiveFeedbackModalShown := isPositiveFeedbackModalShown st;
     onHidden := onHidden st |}.

Definition setNegative (b : bool) (st : state) : state :=
  {| isConfirmStickyActionModalShown := isConfirmStickyActionModalShown st;
     isNegativeFeedbackModalShown := b;
     isPositiveFeedbackModalShown := isPositiveFeedbackModalShown st;
     onHidden := onHidden st |}.

Definition setPositive (b : bool) (st : state) : state :=
  {| isConfirmStickyActionModalShown := isConfirmStickyActionModalShown st;
     isNegativeFeedbackModalShown := isNegativeFeedbackModalShown st;
     isPositiveFeedbackModalShown := b;
     onHidden := onHidden st |}.

Definition setOnHidden (f : option callback) (st : state) : state :=
  {| isConfirmStickyActionModalShown := isConfirmStickyActionModalShown st;
     isNegativeFeedbackModalShown := isNegativeFeedbackModalShown st;
     isPositiveFeedbackModalShown := isPositiveFeedbackModalShown st;
     onHidden := f |}.

(** Running a callback. *)
Definition call (cb : callback) (st : state) : state * list effect :=
  match cb with
  | SubmitPositive action wasUseful caption =>
      (setPositive false st,
       [Dispatch "finishAction"
          [action; VObj (<["caption" := caption]> {[ "wasUseful" := wasUseful ]})]])
  | SubmitNegative action caption =>
      (setNegative false st,
       [Dispatch "finishAction"
          [action; VObj (<["caption" := caption]> {[ "status" := VStr "ACTION_DECLINED" ]})]])
  | Cancel action feedback => (st, [Dispatch "cancelAction" [action; VObj feedback]])
  | Save action => (st, [Dispatch "saveAction" [action]])
  end.

Definition closeAndDo (p : props) (cb : callback) (st : state) : state * list effect :=
  if negb (truthy (isShown p)) then call cb st
  else (setOnHidden (Some cb) st, [OnClose]).

(** Calling the function stored in [onHidden], which the modals receive
    as their [onHidden] property: it clears itself, then runs the
    callback. *)
Definition hidden (st : state) : state * list effect :=
  match onHidden st with
  | None => (st, [])
  | Some cb => call cb (setOnHidden None st)
  end.

Definition handleFinishAction (st : state) : state * list effect :=
  (setPositive true st, []).

Definition handleSubmitPositiveFeedback (p : props) (wasUseful caption : value) (st : state)
  : state * list effect :=
  closeAndDo p (SubmitPositive (action p) wasUseful caption) st.

Definition handleSubmitNegativeFeedback (p : props) (caption : value) (st : state)
  : state * list effect :=
  closeAndDo p (SubmitNegative (action p) caption) st.

Definition handleCancelAction (p : props) (feedback : obj) (st : state)
  : state * list effect :=
  match get feedback "status" with
  | VStr "ACTION_DECLINED" => (setNegative true st, [])
  | _ => closeAndDo p (Cancel (action p) feedback) st
  end.

Definition handleSaveAction (p : props) (st : state) : state * list effect :=
  closeAndDo p (Save (action p)) st.

Definition handleStickAction (p : props) (st : state) : state * list effect :=
  (setConfirm false st, [Dispatch "stickAction" [action p]]).

(** The intents among the effects. *)
Definition dispatched (es : list effect) : list (string * list value) :=
  omap (fun e => match e with Dispatch c args => Some (c, args) | OnClose => None end) es.

(** Running handlers one after the other. *)
Definition andThen (r : state * list effect) (h : state -> state * list effect)
  : state * list effect :=
  let '(st, es) := r in
  let '(st', es') := h st in
  (st', (es ++ es')%list).

End ActionDescriptionModal.

Module Scenario.

Definition anAction : value :=
  VObj (<["actionId" := VStr "a-1"]> {[ "status" := VStr "ACTION_UNREAD" ]}).

Definition shown : ActionDescriptionModal.props :=
  {| ActionDescriptionModal.action := anAction;
     ActionDescriptionModal.isShown := VBool true |}.

Definition closing : ActionDescriptionModal.props :=
  {| ActionDescriptionModal.action := anAction;
     ActionDescriptionModal.isShown := VBool false |}.

Definition declined : obj := {[ "status" := VStr "ACTION_DECLINED" ]}.
Definition snoozed : obj := {[ "status" := VStr "ACTION_SNOOZED" ]}.

End Scenario.

(** ** Servers for the remaining calls of the table *)

(** The platform [P] talking to another server. *)
Definition with_fetch (P : Platform) (f : request -> promise response) : Platform :=
  {| backendHostName := @backendHostName P;
     fetch := f;
     JSON_stringify := @JSON_stringify P;
     JSON_parse := @JSON_parse P;
     ToString := @ToString P;
     encodeURIComponent := @encodeURIComponent P;
     parseFragment := @parseFragment P |}.

Module Fixture.

(** A decoder that knows a few bodies. *)
Definition decode (s : string) : option value :=
  if String.eqb s "null" then Some VNull
  else if String.eqb s "{}" then Some (VObj ∅)
  else if String.eqb s "{tips}" then Some (VObj {[ "tips" := VArr [VStr "tip"] ]})
  else if String.eqb s "{jobBoards}"
       then Some (VObj {[ "jobBoards" := VArr [VObj {[ "title" := VStr "board" ]}] ]})
  else None.

(** A server whose answer to every request is settled in advance. *)
Definition settled (p : promise response) : Platform :=
  {| backendHostName := "https://backend.example";
     fetch := fun _ => p;
     JSON_stringify := fun v => match v with VUndefined => VUndefined | _ => VStr "{}" end;
     JSON_parse := decode;
     ToString := fun v => match v with VStr s => s | _ => "undefined" end;
     encodeURIComponent := fun s => s;
     parseFragment := Sample.parse |}.

Definition answering (code : Z) (body : string) : Platform :=
  settled (Resolved {| status := code; body_text := body |}).

Definition unreachable : Platform := settled (Rejected NetworkError).

Definition u1 : obj := {[ "userId" := VStr "u1" ]}.
Definition p1 : obj := {[ "projectId" := VStr "p1" ]}.
Definition a1 : obj := {[ "adviceId" := VStr "a1" ]}.

End Fixture.

(** * Properties *)

Example sample_parse_notFoundPage :
  Sample.parse Sample.notFoundPage
  = [Element "head" []; Element "body" [Element "p" [Text "Not Found"]]].
Proof. reflexivity. Qed.

Example sample_notFoundPage_message :
  @Api.cleanHtmlError (Sample.server Sample.notFound) Sample.notFoundPage = "Not Found".
Proof. reflexivity. Qed.

Example sample_page_without_paragraph :
  @Api.cleanHtmlError (Sample.server Sample.notFound) "<h1>Oops</h1> try again"
  = "Oops try again".
Proof. reflexivity. Qed.

Example sample_page_with_blank_paragraph :
  @Api.cleanHtmlError (Sample.server Sample.notFound) "<h1>Oops</h1><p></p><p>later</p>"
  = "Oopslater".
Proof. reflexivity. Qed.

Section ApiClient.
Context `{Platform}.

Lemma in_range_test (r : response) :
  ((status r >=? 400) || (status r <? 200))%Z = false <-> 200 <= status r <= 399.
Proof.
  rewrite orb_false_iff, Z.geb_leb, Z.leb_gt, Z.ltb_ge. lia.
Qed.

Lemma handleJsonResponse_success (r : response) :
  200 <= status r <= 399 -> Api.handleJsonResponse r = Api.json r.
Proof.
  intros Hr. unfold Api.handleJsonResponse.
  apply in_range_test in Hr. by rewrite Hr.
Qed.

Lemma handleJsonResponse_failure (r : response) :
  ~ 200 <= status r <= 399 ->
  Api.handleJsonResponse r = Rejected (Thrown (Api.cleanHtmlError (body_text r))).
Proof.
  intros Hr. unfold Api.handleJsonResponse.
  destruct ((status r >=? 400) || (status r <? 200))%Z eqn:E; [done|].
  apply in_range_test in E. contradiction.
Qed.

Lemma cleanHtmlError_paragraph (page : string) (p : node) (rest : list node) :
  getElementsByTagName "P" (Element "html" (parseFragment page)) = p :: rest ->
  innerText p <> "" ->
  Api.cleanHtmlError page = innerText p.
Proof.
  intros Hp Htext. unfold Api.cleanHtmlError. rewrite Hp.
  destruct (String.eqb_spec (innerText p) ""); congruence.
Qed.

Lemma cleanHtmlError_no_paragraph (page : string) :
  getElementsByTagName "P" (Element "html" (parseFragment page)) = [] ->
  Api.cleanHtmlError page = innerText (Element "html" (parseFragment page)).
Proof. intros Hp. unfold Api.cleanHtmlError. by rewrite Hp. Qed.

Lemma cleanHtmlError_blank_paragraph (page : string) (p : node) (rest : list node) :
  getElementsByTagName "P" (Element "html" (parseFragment page)) = p :: rest ->
  innerText p = "" ->
  Api.cleanHtmlError page = innerText (Element "html" (parseFragment page)).
Proof.
  intros Hp Htext. unfold Api.cleanHtmlError. rewrite Hp, Htext. done.
Qed.

(** C5. A response handled by a call that expects JSON settles the
    returned promise as follows: with a status from 200 to 399 it is the
    outcome of decoding the body, hence resolved with the decoded JSON
    whenever the body decodes; with any other status it is rejected with
    the message [cleanHtmlError] extracts from the body, which is the text
    of the first paragraph of the page when there is one with text and the
    text of the whole page when there is no paragraph.  A 404 response
    whose body is the page [<html><p>Not Found</p></html>], parsed as
    browsers parse it, is rejected with the message "Not Found".  The
    gets, the deletes and the posts expecting a response all settle this
    way. *)
Theorem handleJsonResponse_contract (r : response) :
  (200 <= status r <= 399 ->
     Api.handleJsonResponse r = Api.json r /\
     forall v, JSON_parse (body_text r) = Some v -> Api.handleJsonResponse r = Resolved v) /\
  (~ 200 <= status r <= 399 ->
     Api.handleJsonResponse r = Rejected (Thrown (Api.cleanHtmlError (body_text r)))) /\
  (forall page p rest,
     getElementsByTagName "P" (Element "html" (parseFragment page)) = p :: rest ->
     innerText p <> "" ->
     Api.cleanHtmlError page = innerText p) /\
  (forall page,
     getElementsByTagName "P" (Element "html" (parseFragment page)) = [] ->
     Api.cleanHtmlError page = innerText (Element "html" (parseFragment page))) /\
  (status r = 404 ->
   body_text r = "<html><p>Not Found</p></html>" ->
   parseFragment "<html><p>Not Found</p></html>"
   = [Element "head" []; Element "body" [Element "p" [Text "Not Found"]]] ->
   Api.handleJsonResponse r = Rejected (Thrown "Not Found")) /\
  (forall path, fetch (Api.get_request path) = Resolved r ->
     Api.getJson path = Api.handleJsonResponse r) /\
  (forall path data, fetch (Api.post_request path data) = Resolved r ->
     Api.postJson path data true = Api.decoded (Api.handleJsonResponse r)) /\
  (forall path data, fetch (Api.delete_request path data) = Resolved r ->
     Api.deleteJson path data = Api.handleJsonResponse r).
Proof.
  repeat split.
  - by apply handleJsonResponse_success.
  - intros v Hv. rewrite handleJsonResponse_success by done.
    unfold Api.json. by rewrite Hv.
  - apply handleJsonResponse_failure.
  - apply cleanHtmlError_paragraph.
  - apply cleanHtmlError_no_paragraph.
  - intros Hstatus Hbody Hparse.
    rewrite handleJsonResponse_failure by lia.
    rewrite Hbody. unfold Api.cleanHtmlError. rewrite Hparse. reflexivity.
  - intros path Hfetch. unfold Api.getJson. by rewrite Hfetch.
  - intros path data Hfetch. unfold Api.postJson. by rewrite Hfetch.
  - intros path data Hfetch. unfold Api.deleteJson. by rewrite Hfetch.
Qed.

(** C9. A delete call goes out with the HTTP method DELETE and always
    runs the response through the JSON handler: it resolves with the
    decoded body for a status from 200 to 399 and is rejected with the
    extracted message otherwise.  Its request differs from that of a post
    to the same path with the same data by the method only, and it settles
    as the post expecting a response does whenever the server answers both
    alike.  [userDelete] is such a call. *)
Theorem deleteJson_contract (path : string) (data : value) :
  Api.http_method (Api.delete_request path data) = "DELETE" /\
  Api.deleteJson path data
  = fetch (Api.delete_request path data) .then Api.handleJsonResponse /\
  (forall r, fetch (Api.delete_request path data) = Resolved r ->
     (200 <= status r <= 399 ->
        Api.deleteJson path data = Api.json r /\
        forall v, JSON_parse (body_text r) = Some v ->
                  Api.deleteJson path data = Resolved v) /\
     (~ 200 <= status r <= 399 ->
        Api.deleteJson path data
        = Rejected (Thrown (Api.cleanHtmlError (body_text r))))) /\
  req_url (Api.delete_request path data) = req_url (Api.post_request path data) /\
  init_body <$> req_init (Api.delete_request path data)
  = init_body <$> req_init (Api.post_request path data) /\
  init_headers <$> req_init (Api.delete_request path data)
  = init_headers <$> req_init (Api.post_request path data) /\
  (fetch (Api.post_request path data) = fetch (Api.delete_request path data) ->
   Api.postJson path data true = Api.decoded (Api.deleteJson path data)) /\
  (forall user, Api.userDelete user = Api.deleteJson "/api/user" user /\
                Api.api_request (Api.UserDelete user) = Api.delete_request "/api/user" user).
Proof.
  split; [reflexivity|]. split; [reflexivity|]. split.
  - intros r Hfetch. unfold Api.deleteJson. rewrite Hfetch. cbn [then_].
    split.
    + intros Hr. split; [by apply handleJsonResponse_success|].
      intros v Hv. rewrite handleJsonResponse_success by done.
      unfold Api.json. by rewrite Hv.
    + apply handleJsonResponse_failure.
  - repeat split; try reflexivity.
    intros Hsame. unfold Api.postJson, Api.deleteJson, Api.decoded.
    by rewrite Hsame.
Qed.

(** C10. [userPost] posts to [/api/user], expecting a response, the
    serialisation of an object that has no [onboardingComplete] property
    and agrees with the user it was given on every other property. *)
Theorem userPost_drops_onboardingComplete (user : obj) :
  exists protoUser : obj,
    Api.userPost user = Api.postJson "/api/user" (VObj protoUser) true /\
    Api.api_request (Api.UserPost user) = Api.post_request "/api/user" (VObj protoUser) /\
    req_url (Api.post_request "/api/user" (VObj protoUser))
    = backendHostName ++ "/api/user" /\
    Api.http_method (Api.post_request "/api/user" (VObj protoUser)) = "POST" /\
    init_body <$> req_init (Api.post_request "/api/user" (VObj protoUser))
    = Some (JSON_stringify (VObj protoUser)) /\
    protoUser !! "onboardingComplete" = None /\
    forall k, k <> "onboardingComplete" -> protoUser !! k = user !! k.
Proof.
  exists (delete "onboardingComplete" user).
  repeat split.
  - apply lookup_delete_eq.
  - intros k Hk. by apply lookup_delete_ne.
Qed.

(** C6, as amended. When the server answers a call of the API table with
    a 4xx or 5xx status, a call that expects a response (every get, every
    delete, every post made with [isExpectingResponse] set) is rejected
    with the message extracted from the body, while a post that expects no
    response ([saveLikes], [feedbackPost]) resolves with the response as
    it came. *)
Theorem api_error_status (c : Api.api_call) (r : response) :
  fetch (Api.api_request c) = Resolved r ->
  400 <= status r <= 599 ->
  (Api.isExpectingResponse c = true ->
   Api.api c = Rejected (Thrown (Api.cleanHtmlError (body_text r)))) /\
  (Api.isExpectingResponse c = false ->
   Api.api c = Resolved (Raw r)).
Proof.
  intros Hfetch Hstatus.
  assert (Hfail : Api.handleJsonResponse r
                  = Rejected (Thrown (Api.cleanHtmlError (body_text r))))
    by (apply handleJsonResponse_failure; lia).
  split; intros Hexp; destruct c; try discriminate Hexp;
    cbn [Api.api_request] in Hfetch;
    cbn [Api.api Api.decoded];
    unfold Api.adviceTipsGet, Api.dashboardExportGet, Api.exploreGet,
      Api.exploreJobGroupGet, Api.feedbackPost, Api.jobBoardsGet, Api.jobsGet,
      Api.markUsedAndRetrievePost, Api.migrateUserToAdvisor,
      Api.projectRequirementsGet, Api.refreshActionPlanPost, Api.resetPasswordPost,
      Api.saveLikes, Api.userAuthenticate, Api.userDelete, Api.userGet, Api.userPost,
      Api.getJson, Api.postJson, Api.deleteJson;
    rewrite Hfetch; cbn [then_]; rewrite ?Hfail; reflexivity.
Qed.

End ApiClient.

(** The contract of the JSON handler on the sample server: a 200 answer
    with body [{}] and the 404 page. *)
Lemma handleJsonResponse_contract_witness :
  @Api.handleJsonResponse (Sample.server Sample.ok) Sample.ok = Resolved (VObj ∅) /\
  @Api.handleJsonResponse (Sample.server Sample.notFound) Sample.notFound
  = Rejected (Thrown "Not Found") /\
  @Api.getJson (Sample.server Sample.notFound) "/api/user/u1"
  = Rejected (Thrown "Not Found") /\
  @Api.cleanHtmlError (Sample.server Sample.notFound) Sample.notFoundPage
  = innerText (Element "p" [Text "Not Found"]) /\
  @Api.cleanHtmlError (Sample.server Sample.notFound) "<h1>Oops</h1> try again"
  = "Oops try again".
Proof.
  destruct (@handleJsonResponse_contract (Sample.server Sample.ok) Sample.ok)
    as [Hok _].
  destruct (@handleJsonResponse_contract (Sample.server Sample.notFound) Sample.notFound)
    as (_ & Hko & Hfirst & Hpage & H404 & Hget & _).
  split; [|split; [|split; [|split]]].
  - apply Hok; [simpl; lia | reflexivity].
  - apply H404; reflexivity.
  - rewrite (Hget "/api/user/u1") by reflexivity.
    rewrite Hko by (simpl; lia). reflexivity.
  - apply (Hfirst Sample.notFoundPage (Element "p" [Text "Not Found"]) []);
      [reflexivity | discriminate].
  - rewrite (Hpage "<h1>Oops</h1> try again") by reflexivity. reflexivity.
Defined.

Lemma deleteJson_contract_witness :
  @Api.deleteJson (Sample.server Sample.ok) "/api/user" (VObj ∅) = Resolved (VObj ∅) /\
  @Api.deleteJson (Sample.server Sample.notFound) "/api/user" (VObj ∅)
  = Rejected (Thrown "Not Found") /\
  @Api.postJson (Sample.server Sample.ok) "/api/user" (VObj ∅) true
  = Resolved (Json (VObj ∅)).
Proof.
  split; [|split].
  - destruct (@deleteJson_contract (Sample.server Sample.ok) "/api/user" (VObj ∅))
      as (_ & _ & Hsettle & _).
    destruct (Hsettle Sample.ok) as [Hok _]; [reflexivity|].
    apply Hok; [simpl; lia | reflexivity].
  - destruct (@deleteJson_contract (Sample.server Sample.notFound) "/api/user" (VObj ∅))
      as (_ & _ & Hsettle & _).
    destruct (Hsettle Sample.notFound) as [_ Hko]; [reflexivity|].
    rewrite Hko by (simpl; lia). reflexivity.
  - destruct (@deleteJson_contract (Sample.server Sample.ok) "/api/user" (VObj ∅))
      as (_ & _ & _ & _ & _ & _ & Hpost & _).
    rewrite Hpost by reflexivity. reflexivity.
Defined.

Lemma userPost_drops_onboardingComplete_witness :
  exists protoUser : obj,
    @Api.userPost (Sample.server Sample.ok) Sample.sampleUser
    = @Api.postJson (Sample.server Sample.ok) "/api/user" (VObj protoUser) true /\
    protoUser !! "onboardingComplete" = None /\
    protoUser !! "userId" = Some (VStr "u1").
Proof.
  destruct (@userPost_drops_onboardingComplete (Sample.server Sample.ok) Sample.sampleUser)
    as (protoUser & Hpost & _ & _ & _ & _ & Hgone & Hkept).
  exists protoUser. split; [exact Hpost|]. split; [exact Hgone|].
  rewrite (Hkept "userId") by discriminate. reflexivity.
Defined.

Lemma api_error_status_witness :
  @Api.api (Sample.server Sample.serverError) (Api.UserGet (VStr "u1"))
  = Rejected (Thrown "Internal Server Error") /\
  @Api.api (Sample.server Sample.serverError) (Api.SaveLikes (VStr "u1") (VObj ∅))
  = Resolved (Raw Sample.serverError).
Proof.
  split.
  - destruct (@api_error_status (Sample.server Sample.serverError)
                (Api.UserGet (VStr "u1")) Sample.serverError) as [Hrej _];
      [reflexivity | simpl; lia |].
    rewrite Hrej by reflexivity. reflexivity.
  - destruct (@api_error_status (Sample.server Sample.serverError)
                (Api.SaveLikes (VStr "u1") (VObj ∅)) Sample.serverError) as [_ Hraw];
      [reflexivity | simpl; lia |].
    apply Hraw. reflexivity.
Defined.

(** C6 as stated fails: the server answers [feedbackPost] and [saveLikes]
    with a 500 status and both calls resolve, with the response itself. *)
Lemma post_without_response_resolves_on_error_status :
  @fetch (Sample.server Sample.serverError)
    (@Api.api_request (Sample.server Sample.serverError) (Api.FeedbackPost (VObj ∅)))
  = Resolved Sample.serverError /\
  status Sample.serverError = 500 /\
  @Api.feedbackPost (Sample.server Sample.serverError) (VObj ∅)
  = Resolved (Raw Sample.serverError) /\
  is_rejected (@Api.feedbackPost (Sample.server Sample.serverError) (VObj ∅)) = false /\
  is_rejected (@Api.saveLikes (Sample.server Sample.serverError) (VStr "u1") (VObj ∅))
  = false.
Proof. repeat split. Qed.

Section UserReducerProperties.
Import UserReducer.
Variable defaults : obj.

Lemma projects_insert (state : obj) (l : list value) :
  projects (<["projects" := VArr l]> state) = l.
Proof. unfold projects. by rewrite lookup_insert_eq. Qed.

(** The three cases of EDIT_FIRST_PROJECT and the two of CREATE_PROJECT. *)
Lemma user_create (state action : obj) :
  action !! "type" = Some (VStr CREATE_PROJECT) ->
  user defaults state action
  = match projects state with
    | [] => <["projects" := VArr [get action "project"]]> state
    | _ :: _ => state
    end.
Proof. intros Htype. unfold user. by rewrite Htype. Qed.

Lemma user_edit (state action : obj) :
  action !! "type" = Some (VStr EDIT_FIRST_PROJECT) ->
  user defaults state action
  = match projects state with
    | first :: _ =>
        if isIncomplete first
        then <["projects" := VArr [incompleteProject defaults (get action "project")]]> state
        else state
    | [] => <["projects" := VArr [incompleteProject defaults (get action "project")]]> state
    end.
Proof. intros Htype. unfold user. by rewrite Htype. Qed.

Lemma user_cases (state action : obj) :
  user defaults state action = state \/
  exists project, user defaults state action = <["projects" := VArr [project]]> state.
Proof.
  unfold user.
  destruct (action !! "type") as [[| | | |type| |]|]; auto.
  destruct (String.eqb type CREATE_PROJECT).
  { destruct (projects state); eauto. }
  destruct (String.eqb type EDIT_FIRST_PROJECT); auto.
  destruct (projects state) as [|first rest]; eauto.
  destruct (isIncomplete first); eauto.
Qed.

Lemma incompleteCount_singleton (state : obj) (project : value) :
  (incompleteCount (<["projects" := VArr [project]]> state) <= 1)%nat.
Proof.
  unfold incompleteCount. rewrite projects_insert. simpl.
  destruct (isIncomplete project); simpl; lia.
Qed.

Lemma user_preserves_invariant (state action : obj) :
  (incompleteCount state <= 1)%nat ->
  (incompleteCount (user defaults state action) <= 1)%nat.
Proof.
  intros Hstate.
  destruct (user_cases state action) as [-> | [project ->]]; [done|].
  apply incompleteCount_singleton.
Qed.

(** C1. An intent whose type the reducer does not recognise leaves the
    state as it is: the reducer returns the state it was given. *)
Theorem user_unrecognized_intent (state action : obj) :
  recognized action = false ->
  user defaults state action = state.
Proof.
  unfold recognized, user.
  destruct (action !! "type") as [[| | | |type| |]|]; try done.
  intros [-> ->]%orb_false_iff. done.
Qed.

(** C3. On CREATE_PROJECT carrying the project [p]: when the state has no
    [projects], an undefined one or an empty one, the new state has [p] as
    its only project and its other fields as they were; when the state has
    at least one project the state, and so its projects, come back
    unchanged. *)
Theorem create_project_first_wins (state action : obj) (p : value) :
  action !! "type" = Some (VStr CREATE_PROJECT) ->
  action !! "project" = Some p ->
  (state !! "projects" = None \/ state !! "projects" = Some VUndefined
   \/ state !! "projects" = Some (VArr []) ->
   user defaults state action !! "projects" = Some (VArr [p]) /\
   projects (user defaults state action) = [p] /\
   forall f, f <> "projects" -> user defaults state action !! f = state !! f) /\
  (forall first rest, state !! "projects" = Some (VArr (first :: rest)) ->
   user defaults state action = state /\
   projects (user defaults state action) = first :: rest /\
   length (projects (user defaults state action)) = length (projects state)).
Proof.
  intros Htype Hp. rewrite (user_create _ _ Htype).
  unfold get. rewrite Hp. simpl. split.
  - intros Hnone.
    assert (projects state = []) as ->
        by (unfold projects; destruct Hnone as [-> | [-> | ->]]; done).
    rewrite projects_insert, lookup_insert_eq. repeat split.
    intros f Hf. by rewrite lookup_insert_ne.
  - intros first rest Hsome.
    assert (projects state = first :: rest) as -> by (unfold projects; by rewrite Hsome).
    unfold projects. by rewrite Hsome.
Qed.

(** C7. On EDIT_FIRST_PROJECT, when the first project exists and is not
    flagged incomplete, the reducer returns the state it was given: the
    projects and every other field are unchanged, and the result is a
    state, not an error. *)
Theorem edit_complete_project_noop (state action : obj) (first : value) (rest : list value) :
  action !! "type" = Some (VStr EDIT_FIRST_PROJECT) ->
  projects state = first :: rest ->
  isIncomplete first = false ->
  user defaults state action = state /\
  projects (user defaults state action) = first :: rest.
Proof.
  intros Htype Hprojects Hfirst.
  rewrite (user_edit _ _ Htype), Hprojects, Hfirst. done.
Qed.


(** C4. The reducer keeps the number of projects flagged incomplete at
    one at most: from a state that has at most one, and so from the empty
    state, every sequence of intents leads to a state that has at most
    one. *)
Theorem at_most_one_incomplete (state : obj) (actions : list obj) :
  ((incompleteCount state <= 1)%nat ->
   (incompleteCount (dispatch_all defaults state actions) <= 1)%nat) /\
  (incompleteCount (dispatch_all defaults ∅ actions) <= 1)%nat.
Proof.
  assert (Hall : forall s, (incompleteCount s <= 1)%nat ->
                           (incompleteCount (dispatch_all defaults s actions) <= 1)%nat).
  { unfold dispatch_all. induction actions as [|a actions' IH]; intros s Hs; [done|].
    simpl. apply IH, user_preserves_invariant, Hs. }
  split; [apply Hall|].
  apply Hall. unfold incompleteCount, projects. rewrite lookup_empty. simpl. lia.
Qed.

End UserReducerProperties.

(** The cases of the reducer test suite, with no defaults. *)

Example test_unknown_action :
  UserReducer.user ∅ Sample.fooBar Sample.unknownAction = Sample.fooBar.
Proof. reflexivity. Qed.

Example test_not_add_when_there_is_one :
  UserReducer.projects (UserReducer.user ∅ Sample.withCompleteProject Sample.createProject)
  = [VObj {[ "title" := VStr "a project" ]}].
Proof. reflexivity. Qed.

Example test_add_first_project :
  UserReducer.user ∅ Sample.fooBar Sample.createProject
  = <["projects" := VArr [VObj Sample.newProject]]> Sample.fooBar.
Proof. reflexivity. Qed.

Example test_not_edit_complete_project :
  UserReducer.user ∅ Sample.withCompleteProject Sample.editFirstProject
  = Sample.withCompleteProject.
Proof. reflexivity. Qed.

Example test_edit_incomplete_project :
  exists project : obj,
    UserReducer.projects
      (UserReducer.user ∅ Sample.withIncompleteProject Sample.editFirstProject)
    = [VObj project] /\
    project !! "title" = Some (VStr "new project") /\
    project !! "target" = None /\
    UserReducer.user ∅ Sample.withIncompleteProject Sample.editFirstProject !! "foo"
    = Some (VStr "bar").
Proof. eexists. repeat split. Qed.

Example test_create_incomplete_on_first_edit :
  UserReducer.projects (UserReducer.user ∅ Sample.fooBar Sample.editFirstProject)
  = [VObj (<["isIncomplete" := VBool true]> {[ "title" := VStr "new project" ]})].
Proof. reflexivity. Qed.

Lemma user_unrecognized_intent_witness :
  UserReducer.user ∅ Sample.withIncompleteProject Sample.unknownAction
  = Sample.withIncompleteProject.
Proof.
  apply (user_unrecognized_intent ∅ Sample.withIncompleteProject Sample.unknownAction).
  reflexivity.
Defined.

Lemma create_project_first_wins_witness :
  UserReducer.projects (UserReducer.user ∅ Sample.fooBar Sample.createProject)
  = [VObj Sample.newProject] /\
  UserReducer.user ∅ Sample.withCompleteProject Sample.createProject
  = Sample.withCompleteProject.
Proof.
  split.
  - destruct (create_project_first_wins ∅ Sample.fooBar Sample.createProject
                (VObj Sample.newProject)) as [Hfirst _]; [reflexivity | reflexivity |].
    destruct Hfirst as (_ & Hprojects & _); [left; reflexivity|].
    exact Hprojects.
  - destruct (create_project_first_wins ∅ Sample.withCompleteProject Sample.createProject
                (VObj Sample.newProject)) as [_ Hkept]; [reflexivity | reflexivity |].
    destruct (Hkept (VObj {[ "title" := VStr "a project" ]}) []) as [Hsame _];
      [reflexivity|].
    exact Hsame.
Defined.

Lemma edit_complete_project_noop_witness :
  UserReducer.user ∅ Sample.withCompleteProject Sample.editFirstProject
  = Sample.withCompleteProject.
Proof.
  destruct (edit_complete_project_noop ∅ Sample.withCompleteProject Sample.editFirstProject
              (VObj {[ "title" := VStr "a project" ]}) []) as [Hsame _];
    [reflexivity | reflexivity | reflexivity |].
  exact Hsame.
Defined.


Lemma at_most_one_incomplete_witness :
  (UserReducer.incompleteCount
     (UserReducer.dispatch_all ∅ Sample.withIncompleteProject
        [Sample.createProject; Sample.editFirstProject; Sample.unknownAction]) <= 1)%nat.
Proof.
  destruct (at_most_one_incomplete ∅ Sample.withIncompleteProject
              [Sample.createProject; Sample.editFirstProject; Sample.unknownAction])
    as [Hkeep _].
  apply Hkeep. vm_compute. lia.
Defined.

(** * Further properties of the API client *)

(** Unfolds a call of the table down to its [fetch]. *)
Ltac unfold_api :=
  cbn [Api.api Api.decoded Api.api_request] in *;
  unfold Api.adviceTipsGet, Api.dashboardExportGet, Api.exploreGet,
    Api.exploreJobGroupGet, Api.feedbackPost, Api.jobBoardsGet, Api.jobsGet,
    Api.markUsedAndRetrievePost, Api.migrateUserToAdvisor,
    Api.projectRequirementsGet, Api.refreshActionPlanPost, Api.resetPasswordPost,
    Api.saveLikes, Api.userAuthenticate, Api.userDelete, Api.userGet, Api.userPost,
    Api.getJson, Api.postJson, Api.deleteJson in *.

Section ApiTable.
Context `{Platform}.

(** X1. When [fetch] fails, every call of the table, whether it expects a
    response or not, is rejected with the failure of [fetch] itself: no
    handler runs and the reason is not rewritten. *)
Theorem api_network_failure (c : Api.api_call) (e : reason) :
  fetch (Api.api_request c) = Rejected e ->
  Api.api c = Rejected e.
Proof.
  intros Hfetch. destruct c; unfold_api; rewrite Hfetch; reflexivity.
Qed.

(** X2. A call that expects a response and receives a status from 200 to
    399 with a body that is not JSON is rejected with the decoder's syntax
    error. *)
Theorem api_malformed_json (c : Api.api_call) (r : response) :
  Api.isExpectingResponse c = true ->
  fetch (Api.api_request c) = Resolved r ->
  200 <= status r <= 399 ->
  JSON_parse (body_text r) = None ->
  Api.api c = Rejected SyntaxError.
Proof.
  intros Hexp Hfetch Hstatus Hbody.
  assert (Hjson : Api.handleJsonResponse r = Rejected SyntaxError).
  { rewrite handleJsonResponse_success by done. unfold Api.json. by rewrite Hbody. }
  destruct c; try discriminate Hexp; unfold_api;
    rewrite Hfetch; cbn [then_]; rewrite Hjson; reflexivity.
Qed.

(** X3. Apart from [adviceTipsGet] and [jobBoardsGet], which pick one
    property of it, every call that expects a response resolves with the
    decoded body as it is when the status is from 200 to 399 (the two
    posts that expect none resolve with the response). *)
Theorem api_decoded_body (c : Api.api_call) (r : response) (v : value) :
  fetch (Api.api_request c) = Resolved r ->
  200 <= status r <= 399 ->
  JSON_parse (body_text r) = Some v ->
  match c with
  | Api.AdviceTipsGet _ _ _ | Api.JobBoardsGet _ _ => True
  | Api.FeedbackPost _ | Api.SaveLikes _ _ => Api.api c = Resolved (Raw r)
  | _ => Api.api c = Resolved (Json v)
  end.
Proof.
  intros Hfetch Hstatus Hbody.
  assert (Hjson : Api.handleJsonResponse r = Resolved v).
  { rewrite handleJsonResponse_success by done. unfold Api.json. by rewrite Hbody. }
  destruct c; try exact I; unfold_api;
    rewrite Hfetch; cbn [then_]; rewrite ?Hjson; reflexivity.
Qed.

(** X4. The posts that expect no response settle as [fetch] does: for
    every response, whatever its status and body, [saveLikes] and
    [feedbackPost] resolve with the response itself, undecoded. *)
Theorem api_post_without_response (c : Api.api_call) :
  Api.isExpectingResponse c = false ->
  Api.api c = fetch (Api.api_request c) .then (fun r => Resolved (Raw r)) /\
  is_rejected (Api.api c) = is_rejected (fetch (Api.api_request c)).
Proof.
  intros Hexp. destruct c; try discriminate Hexp; unfold_api;
    (split; [reflexivity|]); destruct (fetch _); reflexivity.
Qed.

(** What the two calls that read a property of the body do with a
    response. *)
Lemma adviceTipsGet_resolved (user project advice : obj) (r : response) :
  fetch (Api.api_request (Api.AdviceTipsGet user project advice)) = Resolved r ->
  Api.adviceTipsGet user project advice
  = Api.handleJsonResponse r .then (fun response => Api.prop response "tips").
Proof. intros Hfetch. unfold_api. by rewrite Hfetch. Qed.

Lemma jobBoardsGet_resolved (user project : obj) (r : response) :
  fetch (Api.api_request (Api.JobBoardsGet user project)) = Resolved r ->
  Api.jobBoardsGet user project
  = Api.handleJsonResponse r .then (fun response =>
      Api.prop response "jobBoards" .then (fun jobBoards =>
      Resolved (js_or jobBoards (VArr [])))).
Proof. intros Hfetch. unfold_api. by rewrite Hfetch. Qed.

Lemma handleJsonResponse_decoded (r : response) (v : value) :
  200 <= status r <= 399 ->
  JSON_parse (body_text r) = Some v ->
  Api.handleJsonResponse r = Resolved v.
Proof.
  intros Hstatus Hbody. rewrite handleJsonResponse_success by done.
  unfold Api.json. by rewrite Hbody.
Qed.

(** X5. With a status from 200 to 399, [adviceTipsGet] resolves with the
    [tips] property of the decoded object, and with [undefined], not an
    empty list, when the object has none; when the body decodes to [null]
    the call is rejected with a type error. *)
Theorem adviceTipsGet_tips (user project advice : obj) (r : response) :
  fetch (Api.api_request (Api.AdviceTipsGet user project advice)) = Resolved r ->
  200 <= status r <= 399 ->
  (forall o tips, JSON_parse (body_text r) = Some (VObj o) -> o !! "tips" = Some tips ->
     Api.adviceTipsGet user project advice = Resolved tips) /\
  (forall o, JSON_parse (body_text r) = Some (VObj o) -> o !! "tips" = None ->
     Api.adviceTipsGet user project advice = Resolved VUndefined) /\
  (JSON_parse (body_text r) = Some VNull ->
     Api.adviceTipsGet user project advice = Rejected TypeError).
Proof.
  intros Hfetch Hstatus. rewrite (adviceTipsGet_resolved _ _ _ _ Hfetch).
  repeat split.
  - intros o tips Hbody Htips.
    rewrite (handleJsonResponse_decoded _ _ Hstatus Hbody). simpl.
    unfold get. by rewrite Htips.
  - intros o Hbody Htips.
    rewrite (handleJsonResponse_decoded _ _ Hstatus Hbody). simpl.
    unfold get. by rewrite Htips.
  - intros Hbody. by rewrite (handleJsonResponse_decoded _ _ Hstatus Hbody).
Qed.

(** X6. [jobBoardsGet] never resolves with a falsy value: a missing,
    [null], empty-string, zero or [false] [jobBoards] is replaced by the
    empty list.  With a status from 200 to 399 and a decoded object, it
    resolves with the [jobBoards] property when that is truthy and with
    the empty list otherwise. *)
Theorem jobBoardsGet_default (user project : obj) :
  (forall v, Api.jobBoardsGet user project = Resolved v -> truthy v = true) /\
  (forall r o, fetch (Api.api_request (Api.JobBoardsGet user project)) = Resolved r ->
     200 <= status r <= 399 ->
     JSON_parse (body_text r) = Some (VObj o) ->
     Api.jobBoardsGet user project
     = Resolved (if truthy (get o "jobBoards") then get o "jobBoards" else VArr [])).
Proof.
  split.
  - intros v. unfold Api.jobBoardsGet, Api.getJson.
    destruct (fetch _) as [r|e]; [|discriminate]. cbn [then_].
    destruct (Api.handleJsonResponse r) as [body|e]; [|discriminate]. cbn [then_].
    destruct (Api.prop body "jobBoards") as [jobBoards|e]; [|discriminate]. cbn [then_].
    intros [= <-]. unfold js_or.
    destruct (truthy jobBoards) eqn:Htruthy; done.
  - intros r o Hfetch Hstatus Hbody.
    rewrite (jobBoardsGet_resolved _ _ _ Hfetch).
    by rewrite (handleJsonResponse_decoded _ _ Hstatus Hbody).
Qed.

(** X7. [userPost] does not depend on [onboardingComplete]: two users
    that agree on every other property are posted alike. *)
Theorem userPost_ignores_onboardingComplete (user1 user2 : obj) :
  (forall k, k <> "onboardingComplete" -> user1 !! k = user2 !! k) ->
  Api.userPost user1 = Api.userPost user2 /\
  Api.api_request (Api.UserPost user1) = Api.api_request (Api.UserPost user2).
Proof.
  intros Hagree.
  assert (Hsame : delete "onboardingComplete" user1 = delete "onboardingComplete" user2).
  { apply map_eq. intros k. destruct (decide (k = "onboardingComplete")) as [->|Hk].
    - by rewrite !lookup_delete_eq.
    - rewrite !lookup_delete_ne by done. by apply Hagree. }
  unfold Api.userPost. cbn [Api.api_request]. by rewrite Hsame.
Qed.

(** X8. The message [cleanHtmlError] extracts is the text of the first
    paragraph or the text of the whole page, and it is empty only when the
    whole page has no text: a blank first paragraph does not hide the rest
    of the page. *)
Theorem cleanHtmlError_message (page : string) :
  let html := Element "html" (parseFragment page) in
  (Api.cleanHtmlError page = innerText html \/
   exists p rest, getElementsByTagName "P" html = p :: rest /\
                  Api.cleanHtmlError page = innerText p) /\
  (Api.cleanHtmlError page = "" -> innerText html = "").
Proof.
  unfold Api.cleanHtmlError. cbn zeta.
  destruct (getElementsByTagName "P" (Element "html" (parseFragment page)))
    as [|p rest]; [by split; [left|]|].
  destruct (String.eqb_spec (innerText p) "") as [Hblank|Htext].
  - by split; [left|].
  - split; [right; by exists p, rest|]. intros Hempty. contradiction.
Qed.

(** X9. Every call of the table goes to a path under [/api/] of the
    configured backend.  The calls built on [getJson] send a bare GET;
    [userDelete] sends a DELETE and every other call a POST, both with the
    serialised data as body and the two JSON headers. *)
Theorem api_request_shape (c : Api.api_call) :
  (exists rest, req_url (Api.api_request c) = backendHostName ++ "/api/" ++ rest) /\
  match req_init (Api.api_request c) with
  | None =>
      Api.http_method (Api.api_request c) = "GET" /\
      match c with
      | Api.AdviceTipsGet _ _ _ | Api.DashboardExportGet _ | Api.ExploreGet _ _
      | Api.ExploreJobGroupGet _ _ | Api.JobBoardsGet _ _ | Api.JobsGet _
      | Api.UserGet _ => True
      | _ => False
      end
  | Some init =>
      init_headers init
      = [("Accept", "application/json"); ("Content-Type", "application/json")] /\
      (exists data, init_body init = JSON_stringify data) /\
      Api.http_method (Api.api_request c)
      = match c with Api.UserDelete _ => "DELETE" | _ => "POST" end
  end.
Proof.
  destruct c; (split; [eexists; reflexivity|]); cbn; eauto.
Qed.

(** X10. [exploreJobGroupGet] asks the statistics endpoint the question
    [exploreGet] asks the job endpoint for a source job made of the job
    group alone: the two URLs carry the same [data] parameter. *)
Theorem exploreJobGroupGet_query (city jobGroupRomeId : value) :
  exists data : string,
    req_url (Api.api_request (Api.ExploreJobGroupGet city jobGroupRomeId))
    = backendHostName ++ "/api/explore/job/stats?data=" ++ data /\
    req_url (Api.api_request
               (Api.ExploreGet city
                  (VObj {[ "jobGroup" := VObj {[ "romeId" := jobGroupRomeId ]} ]})))
    = backendHostName ++ "/api/explore/job?data=" ++ data /\
    Api.exploreJobGroupGet city jobGroupRomeId
    = Api.getJson ("/api/explore/job/stats?data=" ++ data) /\
    Api.exploreGet city (VObj {[ "jobGroup" := VObj {[ "romeId" := jobGroupRomeId ]} ]})
    = Api.getJson ("/api/explore/job?data=" ++ data).
Proof. eexists. repeat split. Qed.

End ApiTable.

(** X11. The outcome of a call of the table depends on the server through
    one request only: two servers that settle that request alike settle the
    call alike, whatever they do with every other request. *)
Theorem api_single_request (P : Platform) (f g : request -> promise response)
  (c : Api.api_call) :
  f (@Api.api_request P c) = g (@Api.api_request P c) ->
  @Api.api (with_fetch P f) c = @Api.api (with_fetch P g) c.
Proof.
  intros Hsame. destruct c; unfold_api; cbn [fetch with_fetch];
    match type of Hsame with
    | f ?R = _ =>
        match goal with
        | |- context [f ?r] => change (f r) with (f R)
        end;
        rewrite Hsame;
        match goal with
        | |- _ = ?rhs =>
            match rhs with
            | context [g ?r] => change (g r) with (g R)
            end
        end
    end;
    reflexivity.
Qed.

(** * Properties of the action modals *)

Section PositiveFeedback.
Import PositiveFeedbackModal.

Lemma step_exclusive (st : state) (e : event) :
  isUseful st && isNotUseful st = false ->
  isUseful (step st e) && isNotUseful (step st e) = false.
Proof.
  intros Hst. destruct e as [shown next| |]; simpl; try done.
  unfold componentWillReceiveProps.
  destruct (negb (truthy shown) && truthy next); done.
Qed.

Lemma reachable_exclusive (events : list event) (st : state) :
  isUseful st && isNotUseful st = false ->
  isUseful (fold_left step events st) && isNotUseful (fold_left step events st) = false.
Proof.
  revert st. induction events as [|e events IH]; intros st Hst; [done|].
  simpl. apply IH, step_exclusive, Hst.
Qed.

(** X12. Whatever the user clicks and however often the modal is shown
    and hidden, "Utile" and "Pas utile" are never selected together; the
    send button is disabled exactly when [handleSubmit] would ignore the
    click; and what [handleSubmit] submits is the comment together with
    whether "Utile" is the selected one. *)
Theorem positive_feedback_submit (events : list event) (comment : value) :
  let st := fold_left step events initial in
  isUseful st && isNotUseful st = false /\
  (disabled st = true <-> handleSubmit st comment = None) /\
  (forall wasUseful caption, handleSubmit st comment = Some (wasUseful, caption) ->
     caption = comment /\ wasUseful = VBool (isUseful st) /\
     isNotUseful st = negb (isUseful st)).
Proof.
  intros st.
  assert (Hst : isUseful st && isNotUseful st = false)
    by (apply reachable_exclusive; reflexivity).
  split; [exact Hst|]. unfold disabled, handleSubmit.
  destruct (isUseful st), (isNotUseful st); try discriminate Hst; simpl.
  - split; [done|]. intros w c [= <- <-]. done.
  - split; [done|]. intros w c [= <- <-]. done.
  - split; [done|]. intros w c [=].
Qed.

(** X13. Once the modal goes from hidden to shown the selection is
    cleared, so nothing can be submitted before a new choice is made;
    receiving any other properties leaves the selection alone. *)
Theorem positive_feedback_reset (st : state) (isShown nextIsShown comment : value) :
  (truthy isShown = false -> truthy nextIsShown = true ->
   componentWillReceiveProps isShown nextIsShown st = initial /\
   handleSubmit (componentWillReceiveProps isShown nextIsShown st) comment = None) /\
  (truthy isShown = true \/ truthy nextIsShown = false ->
   componentWillReceiveProps isShown nextIsShown st = st).
Proof.
  unfold componentWillReceiveProps. split.
  - intros -> ->. done.
  - intros [-> | ->]; [done|]. by rewrite andb_false_r.
Qed.

End PositiveFeedback.

Section ActionDescription.
Import ActionDescriptionModal.

(** X14. [closeAndDo] runs its callback exactly once.  When the modal is
    not shown the callback runs at once and [onClose] is not called; when
    it is shown, [onClose] is called, nothing is dispatched until the
    modal has hidden, the callback runs when it has, and a later hiding
    does not run it again. *)
Theorem closeAndDo_once (p : props) (cb : callback) (st : state) :
  onHidden st = None ->
  let r1 := closeAndDo p cb st in
  let r2 := hidden r1.1 in
  let r3 := hidden r2.1 in
  dispatched (r1.2 ++ r2.2 ++ r3.2) = dispatched (call cb st).2 /\
  length (dispatched (r1.2 ++ r2.2 ++ r3.2)) = 1%nat /\
  onHidden r2.1 = None /\
  r3 = (r2.1, []) /\
  (truthy (isShown p) = true -> r1.2 = [OnClose] /\ r2.2 = (call cb st).2) /\
  (truthy (isShown p) = false -> r1.2 = (call cb st).2 /\ r2.2 = []).
Proof.
  intros Hnone. destruct st as [c n ps h]. simpl in Hnone. subst h.
  cbn zeta. unfold closeAndDo, hidden.
  destruct (truthy (isShown p)); destruct cb; simpl; repeat split; done.
Qed.

(** X15. Declining never dispatches [cancelAction]: [handleCancelAction]
    with the status ACTION_DECLINED only opens the negative feedback
    modal, without closing anything, and the decline is dispatched by
    [handleSubmitNegativeFeedback] as a [finishAction] carrying the caption
    and the status ACTION_DECLINED.  With any other status the only intent
    dispatched, at once or after hiding, is [cancelAction] with the
    feedback it was given. *)
Theorem cancel_or_decline (p : props) (feedback : obj) (caption : value) (st : state) :
  onHidden st = None ->
  (get feedback "status" = VStr "ACTION_DECLINED" ->
   handleCancelAction p feedback st = (setNegative true st, []) /\
   dispatched (andThen (andThen (handleCancelAction p feedback st)
                          (handleSubmitNegativeFeedback p caption)) hidden).2
   = [("finishAction",
       [action p;
        VObj (<["caption" := caption]> {[ "status" := VStr "ACTION_DECLINED" ]})])] /\
   isNegativeFeedbackModalShown
     (andThen (andThen (handleCancelAction p feedback st)
                 (handleSubmitNegativeFeedback p caption)) hidden).1 = false) /\
  (get feedback "status" <> VStr "ACTION_DECLINED" ->
   dispatched (andThen (handleCancelAction p feedback st) hidden).2
   = [("cancelAction", [action p; VObj feedback])] /\
   (andThen (handleCancelAction p feedback st) hidden).1 = st).
Proof.
  intros Hnone. split.
  - intros Hstatus. unfold handleCancelAction. rewrite Hstatus.
    split; [reflexivity|].
    unfold handleSubmitNegativeFeedback, closeAndDo, andThen, hidden.
    destruct (truthy (isShown p)); simpl; [done|].
    rewrite Hnone. done.
  - intros Hstatus.
    assert (Hcancel : handleCancelAction p feedback st
                      = closeAndDo p (Cancel (action p) feedback) st).
    { unfold handleCancelAction.
      destruct (get feedback "status") as [| | | |s| |]; try reflexivity.
      destruct (String.eqb_spec s "ACTION_DECLINED") as [->|Hs]; [done|].
      repeat (destruct s as [|[[] [] [] [] [] [] [] []] s]; try reflexivity).
      done. }
    rewrite Hcancel. unfold closeAndDo, andThen, hidden.
    destruct st as [c n ps h]. simpl in Hnone. subst h.
    destruct (truthy (isShown p)); simpl; done.
Qed.

(** X16. A callback waiting for the modal to hide is replaced, not
    queued, by the next [closeAndDo]: when two handlers run while the
    modal is shown and before it has hidden, the intent of the first is
    never dispatched. *)
Theorem closeAndDo_replaces_pending (p : props) (cb1 cb2 : callback) (st : state) :
  truthy (isShown p) = true ->
  let r := andThen (andThen (closeAndDo p cb1 st) (closeAndDo p cb2)) hidden in
  dispatched r.2 = dispatched (call cb2 st).2 /\
  onHidden r.1 = None /\
  r.2 = (OnClose :: OnClose :: (call cb2 st).2).
Proof.
  intros Hshown. cbn zeta. unfold closeAndDo, andThen, hidden. rewrite Hshown. simpl.
  destruct cb2; simpl; done.
Qed.

(** X17. Finishing an action: [handleFinishAction] opens the positive
    feedback modal without dispatching anything; once the feedback is
    submitted and the modal has hidden, the modal is closed again and a
    single [finishAction] carrying the caption and the usefulness has been
    dispatched; the rest of the state is as it was. *)
Theorem finish_with_feedback (p : props) (wasUseful caption : value) (st : state) :
  onHidden st = None ->
  handleFinishAction st = (setPositive true st, []) /\
  let r := andThen (andThen (handleFinishAction st)
                      (handleSubmitPositiveFeedback p wasUseful caption)) hidden in
  r.1 = setPositive false st /\
  dispatched r.2
  = [("finishAction",
      [action p; VObj (<["caption" := caption]> {[ "wasUseful" := wasUseful ]})])].
Proof.
  intros Hnone. split; [reflexivity|]. cbn zeta.
  unfold handleFinishAction, handleSubmitPositiveFeedback, closeAndDo, andThen, hidden.
  destruct st as [c n ps h]. simpl in Hnone. subst h.
  destruct (truthy (isShown p)); simpl; done.
Qed.

End ActionDescription.

(** * The further properties at work *)

Lemma api_network_failure_witness :
  @Api.api Fixture.unreachable (Api.UserGet (VStr "u1")) = Rejected NetworkError /\
  @Api.api Fixture.unreachable (Api.SaveLikes (VStr "u1") (VObj ∅)) = Rejected NetworkError.
Proof.
  split; apply (@api_network_failure Fixture.unreachable); reflexivity.
Defined.

Lemma api_malformed_json_witness :
  @Api.api (Fixture.answering 200 "<html>") (Api.UserGet (VStr "u1"))
  = Rejected SyntaxError.
Proof.
  apply (@api_malformed_json (Fixture.answering 200 "<html>") (Api.UserGet (VStr "u1"))
           {| status := 200; body_text := "<html>" |});
    [reflexivity | reflexivity | simpl; lia | reflexivity].
Defined.

Lemma api_decoded_body_witness :
  @Api.api (Fixture.answering 200 "{}") (Api.UserAuthenticate (VObj ∅))
  = Resolved (Json (VObj ∅)).
Proof.
  apply (@api_decoded_body (Fixture.answering 200 "{}") (Api.UserAuthenticate (VObj ∅))
           {| status := 200; body_text := "{}" |} (VObj ∅));
    [reflexivity | simpl; lia | reflexivity].
Defined.

Lemma api_post_without_response_witness :
  @Api.api (Fixture.answering 204 "") (Api.FeedbackPost (VObj ∅))
  = Resolved (Raw {| status := 204; body_text := "" |}).
Proof.
  destruct (@api_post_without_response (Fixture.answering 204 "")
              (Api.FeedbackPost (VObj ∅))) as [Hsettle _]; [reflexivity|].
  rewrite Hsettle. reflexivity.
Defined.

Lemma adviceTipsGet_tips_witness :
  @Api.adviceTipsGet (Fixture.answering 200 "{tips}") Fixture.u1 Fixture.p1 Fixture.a1
  = Resolved (VArr [VStr "tip"]) /\
  @Api.adviceTipsGet (Fixture.answering 200 "{}") Fixture.u1 Fixture.p1 Fixture.a1
  = Resolved VUndefined /\
  @Api.adviceTipsGet (Fixture.answering 200 "null") Fixture.u1 Fixture.p1 Fixture.a1
  = Rejected TypeError.
Proof.
  split; [|split].
  - destruct (@adviceTipsGet_tips (Fixture.answering 200 "{tips}")
                Fixture.u1 Fixture.p1 Fixture.a1 {| status := 200; body_text := "{tips}" |})
      as (Htips & _ & _); [reflexivity | simpl; lia |].
    apply (Htips {[ "tips" := VArr [VStr "tip"] ]}); reflexivity.
  - destruct (@adviceTipsGet_tips (Fixture.answering 200 "{}")
                Fixture.u1 Fixture.p1 Fixture.a1 {| status := 200; body_text := "{}" |})
      as (_ & Hnone & _); [reflexivity | simpl; lia |].
    apply (Hnone ∅); reflexivity.
  - destruct (@adviceTipsGet_tips (Fixture.answering 200 "null")
                Fixture.u1 Fixture.p1 Fixture.a1 {| status := 200; body_text := "null" |})
      as (_ & _ & Hnull); [reflexivity | simpl; lia |].
    apply Hnull. reflexivity.
Defined.

Lemma jobBoardsGet_default_witness :
  @Api.jobBoardsGet (Fixture.answering 200 "{}") Fixture.u1 Fixture.p1 = Resolved (VArr []) /\
  truthy (VArr []) = true /\
  @Api.jobBoardsGet (Fixture.answering 200 "{jobBoards}") Fixture.u1 Fixture.p1
  = Resolved (VArr [VObj {[ "title" := VStr "board" ]}]).
Proof.
  split; [|split].
  - destruct (@jobBoardsGet_default (Fixture.answering 200 "{}") Fixture.u1 Fixture.p1)
      as [_ Hdefault].
    rewrite (Hdefault {| status := 200; body_text := "{}" |} ∅);
      [reflexivity | reflexivity | simpl; lia | reflexivity].
  - destruct (@jobBoardsGet_default (Fixture.answering 200 "{}") Fixture.u1 Fixture.p1)
      as [Htruthy _].
    apply Htruthy. reflexivity.
  - destruct (@jobBoardsGet_default (Fixture.answering 200 "{jobBoards}")
                Fixture.u1 Fixture.p1) as [_ Hdefault].
    rewrite (Hdefault {| status := 200; body_text := "{jobBoards}" |}
               {[ "jobBoards" := VArr [VObj {[ "title" := VStr "board" ]}] ]});
      [reflexivity | reflexivity | simpl; lia | reflexivity].
Defined.

Lemma userPost_ignores_onboardingComplete_witness :
  @Api.userPost (Fixture.answering 200 "{}") Sample.sampleUser
  = @Api.userPost (Fixture.answering 200 "{}") Fixture.u1.
Proof.
  destruct (@userPost_ignores_onboardingComplete (Fixture.answering 200 "{}")
              Sample.sampleUser Fixture.u1) as [Hsame _]; [|exact Hsame].
  intros k Hk. unfold Sample.sampleUser, Fixture.u1.
  rewrite lookup_insert_ne; [reflexivity | congruence].
Defined.

Lemma cleanHtmlError_message_witness :
  innerText (Element "html" (Sample.parse "<p></p>")) = "".
Proof.
  destruct (@cleanHtmlError_message (Fixture.answering 500 "<p></p>") "<p></p>")
    as [_ Hempty].
  apply Hempty. reflexivity.
Defined.

Lemma api_single_request_witness :
  @Api.api (with_fetch (Fixture.answering 200 "{}") (fun _ => Rejected NetworkError))
    (Api.JobsGet (VStr "A1234"))
  = @Api.api
      (with_fetch (Fixture.answering 200 "{}")
         (fun req => if String.eqb (req_url req) "https://backend.example/api/jobs/A1234"
                     then Rejected NetworkError
                     else Resolved {| status := 200; body_text := "{}" |}))
      (Api.JobsGet (VStr "A1234")).
Proof.
  apply (api_single_request (Fixture.answering 200 "{}")). reflexivity.
Defined.

Lemma positive_feedback_submit_witness :
  PositiveFeedbackModal.handleSubmit PositiveFeedbackModal.initial (VStr "") = None /\
  PositiveFeedbackModal.isNotUseful
    (fold_left PositiveFeedbackModal.step
       [PositiveFeedbackModal.ClickNotUseful; PositiveFeedbackModal.ClickUseful]
       PositiveFeedbackModal.initial) = false.
Proof.
  split.
  - destruct (positive_feedback_submit [] (VStr "")) as (_ & Hdisabled & _).
    apply Hdisabled. reflexivity.
  - destruct (positive_feedback_submit
                [PositiveFeedbackModal.ClickNotUseful; PositiveFeedbackModal.ClickUseful]
                (VStr "merci")) as (_ & _ & Hsubmit).
    destruct (Hsubmit (VBool true) (VStr "merci")) as (_ & _ & Hother); [reflexivity|].
    exact Hother.
Defined.

Lemma positive_feedback_reset_witness :
  PositiveFeedbackModal.componentWillReceiveProps (VBool false) (VBool true)
    {| PositiveFeedbackModal.isNotUseful := false; PositiveFeedbackModal.isUseful := true |}
  = PositiveFeedbackModal.initial /\
  PositiveFeedbackModal.componentWillReceiveProps (VBool true) (VBool true)
    {| PositiveFeedbackModal.isNotUseful := false; PositiveFeedbackModal.isUseful := true |}
  = {| PositiveFeedbackModal.isNotUseful := false; PositiveFeedbackModal.isUseful := true |}.
Proof.
  split.
  - destruct (positive_feedback_reset
                {| PositiveFeedbackModal.isNotUseful := false;
                   PositiveFeedbackModal.isUseful := true |}
                (VBool false) (VBool true) (VStr "")) as [Hreset _].
    destruct Hreset as [Hinitial _]; [reflexivity | reflexivity |]. exact Hinitial.
  - destruct (positive_feedback_reset
                {| PositiveFeedbackModal.isNotUseful := false;
                   PositiveFeedbackModal.isUseful := true |}
                (VBool true) (VBool true) (VStr "")) as [_ Hkeep].
    apply Hkeep. left. reflexivity.
Defined.

Lemma closeAndDo_once_witness :
  (ActionDescriptionModal.closeAndDo Scenario.shown
     (ActionDescriptionModal.Save Scenario.anAction) ActionDescriptionModal.initial).2
  = [ActionDescriptionModal.OnClose] /\
  (ActionDescriptionModal.closeAndDo Scenario.closing
     (ActionDescriptionModal.Save Scenario.anAction) ActionDescriptionModal.initial).2
  = [ActionDescriptionModal.Dispatch "saveAction" [Scenario.anAction]].
Proof.
  split.
  - destruct (closeAndDo_once Scenario.shown
                (ActionDescriptionModal.Save Scenario.anAction)
                ActionDescriptionModal.initial) as (_ & _ & _ & _ & Hshown & _);
      [reflexivity|].
    destruct Hshown as [Hclose _]; [reflexivity|]. exact Hclose.
  - destruct (closeAndDo_once Scenario.closing
                (ActionDescriptionModal.Save Scenario.anAction)
                ActionDescriptionModal.initial) as (_ & _ & _ & _ & _ & Hclosing);
      [reflexivity|].
    destruct Hclosing as [Hnow _]; [reflexivity|]. exact Hnow.
Defined.

Lemma cancel_or_decline_witness :
  ActionDescriptionModal.handleCancelAction Scenario.shown Scenario.declined
    ActionDescriptionModal.initial
  = (ActionDescriptionModal.setNegative true ActionDescriptionModal.initial, []) /\
  ActionDescriptionModal.dispatched
    (ActionDescriptionModal.andThen
       (ActionDescriptionModal.handleCancelAction Scenario.shown Scenario.snoozed
          ActionDescriptionModal.initial)
       ActionDescriptionModal.hidden).2
  = [("cancelAction", [Scenario.anAction; VObj Scenario.snoozed])].
Proof.
  split.
  - destruct (cancel_or_decline Scenario.shown Scenario.declined (VStr "trop long")
                ActionDescriptionModal.initial) as [Hdecline _]; [reflexivity|].
    destruct Hdecline as [Hopen _]; [reflexivity|]. exact Hopen.
  - destruct (cancel_or_decline Scenario.shown Scenario.snoozed (VStr "")
                ActionDescriptionModal.initial) as [_ Hcancel]; [reflexivity|].
    destruct Hcancel as [Hdispatch _]; [discriminate|]. exact Hdispatch.
Defined.

Lemma closeAndDo_replaces_pending_witness :
  ActionDescriptionModal.dispatched
    (ActionDescriptionModal.andThen
       (ActionDescriptionModal.andThen
          (ActionDescriptionModal.closeAndDo Scenario.shown
             (ActionDescriptionModal.Save Scenario.anAction)
             ActionDescriptionModal.initial)
          (ActionDescriptionModal.closeAndDo Scenario.shown
             (ActionDescriptionModal.Cancel Scenario.anAction Scenario.snoozed)))
       ActionDescriptionModal.hidden).2
  = [("cancelAction", [Scenario.anAction; VObj Scenario.snoozed])].
Proof.
  destruct (closeAndDo_replaces_pending Scenario.shown
              (ActionDescriptionModal.Save Scenario.anAction)
              (ActionDescriptionModal.Cancel Scenario.anAction Scenario.snoozed)
              ActionDescriptionModal.initial) as [Hlast _]; [reflexivity|].
  exact Hlast.
Defined.

Lemma finish_with_feedback_witness :
  (ActionDescriptionModal.andThen
     (ActionDescriptionModal.andThen
        (ActionDescriptionModal.handleFinishAction ActionDescriptionModal.initial)
        (ActionDescriptionModal.handleSubmitPositiveFeedback Scenario.shown
           (VBool true) (VStr "merci")))
     ActionDescriptionModal.hidden).1
  = ActionDescriptionModal.initial.
Proof.
  destruct (finish_with_feedback Scenario.shown (VBool true) (VStr "merci")
              ActionDescriptionModal.initial) as [_ Hflow]; [reflexivity|].
  destruct Hflow as [Hstate _]. exact Hstate.
Defined.
